(** * MCP24LC512: driver of the 24LC512 serial EEPROM (Huzzah32)

    Shallow embedding of [MCP24LC512.cpp] / [MCP24LC512.h].

    The driver is a client of two interfaces that live outside the
    repository: the Arduino digital I/O functions ([pinMode],
    [digitalWrite], [delay]) and the [TwoWire] bus class.  They are taken
    as a parameter, the class [HAL]: every theorem about the driver holds
    for every implementation of it.  Each primitive call is also logged in
    a trace, so that statements about which primitives a method performs,
    in which order and with which arguments, are statements about values.

    The methods of the C++ class are programs of a small state monad over
    the object's fields, the environment and the trace. *)

From Stdlib Require Import ZArith List Bool Lia.
Import ListNotations.
Open Scope Z_scope.

(** ** Fixed-width integers *)

(** Conversion to [uint8_t]. *)
Definition to_uint8 (z : Z) : Z := z mod 256.

Definition is_uint8 (z : Z) : Prop := 0 <= z < 256.
Definition is_uint16 (z : Z) : Prop := 0 <= z < 65536.

(** ** The consumed interfaces *)

(** Identity of a [TwoWire] object ([TwoWire&], [TwoWire*]). *)
Definition wire_ref := nat.

(** The core's default bus object, [Wire]. *)
Definition Wire : wire_ref := 0%nat.

(** Pin directions ([OUTPUT] is the one the driver uses) and levels. *)
Inductive pin_mode := INPUT | OUTPUT | INPUT_PULLUP.
Inductive level := LOW | HIGH.

Class HAL (Env : Type) := {
  (* Arduino.h *)
  hal_pinMode : Z -> pin_mode -> Env -> Env;
  hal_digitalWrite : Z -> level -> Env -> Env;
  hal_delay : Z -> Env -> Env;
  (* Wire.h, class TwoWire *)
  tw_begin : wire_ref -> Env -> bool * Env;
  tw_end : wire_ref -> Env -> bool * Env;
  tw_beginTransmission : wire_ref -> Z -> Env -> Env;
  tw_write : wire_ref -> Z -> Env -> Z * Env;
  tw_endTransmission : wire_ref -> Env -> Z * Env;
  tw_requestFrom : wire_ref -> Z -> Z -> Env -> Z * Env;
  tw_read : wire_ref -> Env -> Z * Env
}.

(** One entry per primitive call, with its arguments and, where the
    primitive returns something, its result. *)
Inductive event :=
| EvPinMode (pin : Z) (m : pin_mode)
| EvDigitalWrite (pin : Z) (l : level)
| EvDelay (ms : Z)
| EvWireBegin (w : wire_ref) (ok : bool)
| EvWireEnd (w : wire_ref) (ok : bool)
| EvBeginTransmission (w : wire_ref) (addr : Z)
| EvWrite (w : wire_ref) (byte : Z)
| EvEndTransmission (w : wire_ref) (status : Z)
| EvRequestFrom (w : wire_ref) (addr : Z) (quantity : Z) (received : Z)
| EvRead (w : wire_ref) (value : Z).

(** ** The object *)

(** [MCP24LC512::Default] and [MCP24LC512::None]. *)
Definition Default : Z := 0x50.
Definition None_pin : Z := 0xFF.

(** The private fields of the class. *)
Record MCP24LC512 := {
  _address : Z;
  _wp : Z;
  _wire : wire_ref
}.

Record state (Env : Type) := {
  this : MCP24LC512;
  env : Env;
  trace : list event
}.
Arguments this {Env} _.
Arguments env {Env} _.
Arguments trace {Env} _.
Arguments Build_state {Env} _ _ _.

(** ** State monad *)

Definition M (Env A : Type) : Type := state Env -> A * state Env.

Definition ret {Env A} (a : A) : M Env A := fun s => (a, s).

Definition bind {Env A B} (m : M Env A) (k : A -> M Env B) : M Env B :=
  fun s => let (a, s') := m s in k a s'.

Notation "x <- m ;; k" := (bind m (fun x => k))
  (at level 61, m at next level, right associativity).
Notation "m ;; k" := (bind m (fun _ => k))
  (at level 61, right associativity).

Section Driver.

Context {Env : Type} {H : HAL Env}.

(** Field access. *)
Definition get_address : M Env Z := fun s => (_address (this s), s).
Definition get_wp : M Env Z := fun s => (_wp (this s), s).
Definition get_wire : M Env wire_ref := fun s => (_wire (this s), s).

Definition set_address (a : Z) : M Env unit := fun s =>
  (tt, Build_state
         {| _address := a; _wp := _wp (this s); _wire := _wire (this s) |}
         (env s) (trace s)).
Definition set_wp (p : Z) : M Env unit := fun s =>
  (tt, Build_state
         {| _address := _address (this s); _wp := p; _wire := _wire (this s) |}
         (env s) (trace s)).
Definition set_wire (w : wire_ref) : M Env unit := fun s =>
  (tt, Build_state
         {| _address := _address (this s); _wp := _wp (this s); _wire := w |}
         (env s) (trace s)).

(** A primitive that returns nothing, and one that returns a value: the
    environment moves and the call is logged. *)
Definition prim_void (f : Env -> Env) (ev : event) : M Env unit := fun s =>
  (tt, Build_state (this s) (f (env s)) (trace s ++ [ev])).

Definition prim {A} (f : Env -> A * Env) (ev : A -> event) : M Env A := fun s =>
  let (a, e) := f (env s) in
  (a, Build_state (this s) e (trace s ++ [ev a])).

Definition pinMode (pin : Z) (m : pin_mode) : M Env unit :=
  prim_void (hal_pinMode pin m) (EvPinMode pin m).
Definition digitalWrite (pin : Z) (l : level) : M Env unit :=
  prim_void (hal_digitalWrite pin l) (EvDigitalWrite pin l).
Definition delay (ms : Z) : M Env unit :=
  prim_void (hal_delay ms) (EvDelay ms).

Definition wire_begin (w : wire_ref) : M Env bool :=
  prim (tw_begin w) (EvWireBegin w).
Definition wire_end (w : wire_ref) : M Env bool :=
  prim (tw_end w) (EvWireEnd w).
Definition wire_beginTransmission (w : wire_ref) (addr : Z) : M Env unit :=
  prim_void (tw_beginTransmission w addr) (EvBeginTransmission w addr).
(** [TwoWire::write] sends one byte: an [int] argument is narrowed by the
    caller of this definition. *)
Definition wire_write (w : wire_ref) (byte : Z) : M Env Z :=
  prim (tw_write w byte) (fun _ => EvWrite w byte).
Definition wire_endTransmission (w : wire_ref) : M Env Z :=
  prim (tw_endTransmission w) (EvEndTransmission w).
Definition wire_requestFrom (w : wire_ref) (addr quantity : Z) : M Env Z :=
  prim (tw_requestFrom w addr quantity) (EvRequestFrom w addr quantity).
Definition wire_read (w : wire_ref) : M Env Z :=
  prim (tw_read w) (EvRead w).

(** ** The methods of [MCP24LC512]

    Every [_wire->f(...)] reads the field [_wire] at the call, as the
    source does. *)

(** [bool begin(TwoWire& wire, const uint8_t address, const uint8_t wp)] *)
Definition begin_wire (wire : wire_ref) (address wp : Z) : M Env bool :=
  set_wire wire ;;
  set_address address ;;
  set_wp wp ;;
  p <- get_wp ;;
  pinMode p OUTPUT ;;
  w <- get_wire ;;
  wire_begin w.

(** [bool begin(const uint8_t address, const uint8_t wp)] *)
Definition begin (address wp : Z) : M Env bool :=
  begin_wire Wire address wp.

(** [bool end()] ([end] is a keyword of Rocq, hence the underscore). *)
Definition end_ : M Env bool :=
  w <- get_wire ;;
  wire_end w.

(** [bool write(const uint16_t address, const uint8_t data)].  The two
    address bytes go through [write(int)], which sends the low eight bits
    of its argument. *)
Definition write (address data : Z) : M Env bool :=
  w <- get_wire ;; a <- get_address ;; wire_beginTransmission w a ;;
  w <- get_wire ;; wire_write w (to_uint8 (Z.shiftr address 8)) ;;
  w <- get_wire ;; wire_write w (to_uint8 address) ;;
  w <- get_wire ;; wire_write w data ;;
  w <- get_wire ;; st <- wire_endTransmission w ;;
  ret (st =? 0).

(** [uint8_t read(const uint16_t address)].  [TwoWire::read] returns an
    [int]; the method returns it as a [uint8_t]. *)
Definition read (address : Z) : M Env Z :=
  w <- get_wire ;; a <- get_address ;; wire_beginTransmission w a ;;
  w <- get_wire ;; wire_write w (to_uint8 (Z.shiftr address 8)) ;;
  w <- get_wire ;; wire_write w (to_uint8 address) ;;
  w <- get_wire ;; wire_endTransmission w ;;
  w <- get_wire ;; a <- get_address ;; wire_requestFrom w a 1 ;;
  w <- get_wire ;; v <- wire_read w ;;
  ret (to_uint8 v).

(** [void writeProtect(const bool on)] *)
Definition writeProtect (on : bool) : M Env unit :=
  p <- get_wp ;;
  digitalWrite p (if on then HIGH else LOW).

End Driver.

(** ** Sequences of calls

    A client program is a sequence of method calls on one object. *)

Inductive call :=
| CallBegin (address wp : Z)
| CallBeginWire (wire : wire_ref) (address wp : Z)
| CallEnd
| CallWrite (address data : Z)
| CallRead (address : Z)
| CallWriteProtect (on : bool)
| CallDelay (ms : Z).

Definition is_begin (c : call) : bool :=
  match c with
  | CallBegin _ _ | CallBeginWire _ _ _ => true
  | _ => false
  end.

Section Calls.

Context {Env : Type} {H : HAL Env}.

(** The state after one call (the value returned is dropped). *)
Definition exec (c : call) (s : state Env) : state Env :=
  match c with
  | CallBegin a p => snd (begin a p s)
  | CallBeginWire w a p => snd (begin_wire w a p s)
  | CallEnd => snd (end_ s)
  | CallWrite a d => snd (write a d s)
  | CallRead a => snd (read a s)
  | CallWriteProtect on => snd (writeProtect on s)
  | CallDelay ms => snd (delay ms s)
  end.

Definition exec_all (cs : list call) (s : state Env) : state Env :=
  fold_left (fun s c => exec c s) cs s.

End Calls.

(** The events that a run added to the trace. *)
Definition new_events (before after : list event) : list event :=
  skipn (length before) after.

Section Observations.

Context {Env : Type} {H : HAL Env}.

(** The environment once a transmission to [a] has been opened on [w] and
    [bytes] have been written to it, in this order. *)
Definition env_after_tx (w : wire_ref) (a : Z) (bytes : list Z) (e : Env)
  : Env :=
  fold_left (fun e b => snd (tw_write w b e)) bytes
            (tw_beginTransmission w a e).

(** The status that closing that transmission reports, and the environment
    it leaves. *)
Definition close_tx (w : wire_ref) (a : Z) (bytes : list Z) (e : Env)
  : Z * Env :=
  tw_endTransmission w (env_after_tx w a bytes e).

(** The outcome of initialising the bus [w] once pin [p] is an output. *)
Definition bus_init (w : wire_ref) (p : Z) (e : Env) : bool * Env :=
  tw_begin w (hal_pinMode p OUTPUT e).

End Observations.

(** The same environment, where the status that closing a transmission
    reports is replaced by [f]; what closing does to the environment is
    kept. *)
Definition with_status {Env : Type} (H : HAL Env)
    (f : wire_ref -> Env -> Z) : HAL Env :=
  {| hal_pinMode := hal_pinMode;
     hal_digitalWrite := hal_digitalWrite;
     hal_delay := hal_delay;
     tw_begin := tw_begin;
     tw_end := tw_end;
     tw_beginTransmission := tw_beginTransmission;
     tw_write := tw_write;
     tw_endTransmission := fun w e => (f w e, snd (tw_endTransmission w e));
     tw_requestFrom := tw_requestFrom;
     tw_read := tw_read |}.

(** What a trace says was sent on the bus and which delays were made. *)
Definition sent_byte (ev : event) : option Z :=
  match ev with EvWrite _ b => Some b | _ => None end.

Fixpoint sent_bytes (t : list event) : list Z :=
  match t with
  | [] => []
  | ev :: t' =>
      match sent_byte ev with
      | Some b => b :: sent_bytes t'
      | None => sent_bytes t'
      end
  end.

Definition is_delay (ev : event) : bool :=
  match ev with EvDelay _ => true | _ => false end.

Definition is_endTransmission (ev : event) : bool :=
  match ev with EvEndTransmission _ _ => true | _ => false end.

Definition is_beginTransmission (ev : event) : bool :=
  match ev with EvBeginTransmission _ _ => true | _ => false end.

(** ** A reference environment

    An implementation of [HAL]: a board with GPIO pins, [TwoWire] buses
    with their transmit and receive buffers, and one 24LC512 on a bus.
    The chip and the bus library are hardware and code outside the
    repository; the driver itself is verified against an arbitrary [HAL].
    The board is the environment for the properties that speak of what the
    chip stores, and it follows what [MCP24LC512.h] documents of the chip:
    "The device store the byte at the address", "The device returns the
    byte stored at the address", "If write protection is enabled, write
    operation will not fail but data will not be effectively written", and
    the [@bug] note, "Add a delay of 5 milliseconds after a write operation
    before any other action or write will not be done". *)

Module Board.

Record twowire := {
  started : bool;
  tx_addr : Z;
  tx_buf : list Z;
  rx_buf : list Z
}.

Record eeprom := {
  mem : Z -> Z;      (* the 65536 cells *)
  ptr : Z;           (* internal address counter *)
  busy : Z           (* milliseconds left of the write cycle *)
}.

(** How the chip is wired to the MCU. *)
Record wiring := {
  chip_bus : wire_ref;
  chip_addr : Z;
  chip_wp : option Z   (* the pin that drives WP; [None]: WP tied low *)
}.

Record board := {
  modes : Z -> pin_mode;
  levels : Z -> level;
  bus : wire_ref -> twowire;
  chip : eeprom
}.

Definition valid_pin (p : Z) : bool := (0 <=? p) && (p <? 40).

Definition upd {A} (f : Z -> A) (k : Z) (v : A) : Z -> A :=
  fun k' => if k' =? k then v else f k'.

Definition set_bus (b : board) (w : wire_ref) (t : twowire) : board :=
  {| modes := modes b; levels := levels b;
     bus := fun w' => if Nat.eqb w' w then t else bus b w';
     chip := chip b |}.

Definition set_chip (b : board) (c : eeprom) : board :=
  {| modes := modes b; levels := levels b; bus := bus b; chip := c |}.

Definition wp_asserted (wr : wiring) (b : board) : bool :=
  match chip_wp wr with
  | Some p => match levels b p with HIGH => true | LOW => false end
  | None => false
  end.

(** The chip answers on its bus, at its address, outside a write cycle. *)
Definition answers (wr : wiring) (b : board) (w : wire_ref) (a : Z) : bool :=
  started (bus b w) && Nat.eqb w (chip_bus wr) && (a =? chip_addr wr)
  && (busy (chip b) =? 0).

(** A write stays inside its 128-byte page. *)
Definition next_in_page (p : Z) : Z := (p / 128) * 128 + (p + 1) mod 128.

Fixpoint store (m : Z -> Z) (p : Z) (data : list Z) : (Z -> Z) * Z :=
  match data with
  | [] => (m, p)
  | d :: ds => store (upd m p d) (next_in_page p) ds
  end.

Fixpoint fetch (m : Z -> Z) (p : Z) (n : nat) : list Z :=
  match n with
  | O => []
  | S n' => m p :: fetch m ((p + 1) mod 65536) n'
  end.

Definition gpio_mode (p : Z) (m : pin_mode) (b : board) : board :=
  if valid_pin p
  then {| modes := upd (modes b) p m; levels := levels b;
          bus := bus b; chip := chip b |}
  else b.

Definition gpio_write (p : Z) (l : level) (b : board) : board :=
  if valid_pin p
  then {| modes := modes b; levels := upd (levels b) p l;
          bus := bus b; chip := chip b |}
  else b.

Definition wait (ms : Z) (b : board) : board :=
  set_chip b {| mem := mem (chip b); ptr := ptr (chip b);
                busy := Z.max 0 (busy (chip b) - ms) |}.

Definition wbegin (w : wire_ref) (b : board) : bool * board :=
  (true, set_bus b w {| started := true; tx_addr := 0;
                        tx_buf := []; rx_buf := [] |}).

Definition wend (w : wire_ref) (b : board) : bool * board :=
  (true, set_bus b w {| started := false; tx_addr := 0;
                        tx_buf := []; rx_buf := [] |}).

Definition beginTransmission (w : wire_ref) (a : Z) (b : board) : board :=
  set_bus b w {| started := started (bus b w); tx_addr := a;
                 tx_buf := []; rx_buf := rx_buf (bus b w) |}.

Definition wwrite (w : wire_ref) (byte : Z) (b : board) : Z * board :=
  if Nat.ltb (length (tx_buf (bus b w))) 128
  then (1, set_bus b w {| started := started (bus b w);
                          tx_addr := tx_addr (bus b w);
                          tx_buf := tx_buf (bus b w) ++ [byte];
                          rx_buf := rx_buf (bus b w) |})
  else (0, b).

(** Status 0: acknowledged; 2: no acknowledge of the address. *)
Definition endTransmission (wr : wiring) (w : wire_ref) (b : board)
  : Z * board :=
  if answers wr b w (tx_addr (bus b w)) then
    match tx_buf (bus b w) with
    | h :: l :: [] =>
        (0, set_chip b {| mem := mem (chip b); ptr := h * 256 + l;
                          busy := 0 |})
    | h :: l :: data =>
        if wp_asserted wr b
        then (0, set_chip b {| mem := mem (chip b); ptr := h * 256 + l;
                               busy := 0 |})
        else let (m, p) := store (mem (chip b)) (h * 256 + l) data in
             (0, set_chip b {| mem := m; ptr := p; busy := 5 |})
    | _ => (0, b)
    end
  else (2, b).

Definition requestFrom (wr : wiring) (w : wire_ref) (a n : Z) (b : board)
  : Z * board :=
  if answers wr b w a then
    (n, set_chip
          (set_bus b w {| started := started (bus b w);
                          tx_addr := tx_addr (bus b w);
                          tx_buf := tx_buf (bus b w);
                          rx_buf := fetch (mem (chip b)) (ptr (chip b))
                                      (Z.to_nat n) |})
          {| mem := mem (chip b); ptr := (ptr (chip b) + n) mod 65536;
             busy := busy (chip b) |})
  else
    (0, set_bus b w {| started := started (bus b w);
                       tx_addr := tx_addr (bus b w);
                       tx_buf := tx_buf (bus b w);
                       rx_buf := [] |}).

(** [-1] when the receive buffer is empty. *)
Definition wread (w : wire_ref) (b : board) : Z * board :=
  match rx_buf (bus b w) with
  | [] => (-1, b)
  | x :: r => (x, set_bus b w {| started := started (bus b w);
                                 tx_addr := tx_addr (bus b w);
                                 tx_buf := tx_buf (bus b w);
                                 rx_buf := r |})
  end.

Definition hal (wr : wiring) : HAL board :=
  {| hal_pinMode := gpio_mode;
     hal_digitalWrite := gpio_write;
     hal_delay := wait;
     tw_begin := wbegin;
     tw_end := wend;
     tw_beginTransmission := beginTransmission;
     tw_write := wwrite;
     tw_endTransmission := endTransmission wr;
     tw_requestFrom := requestFrom wr;
     tw_read := wread |}.

(** The chip at [Default] on [Wire], WP driven by pin 7; a fresh board. *)
Definition wiring0 : wiring :=
  {| chip_bus := Wire; chip_addr := Default; chip_wp := Some 7 |}.

Definition board0 : board :=
  {| modes := fun _ => INPUT;
     levels := fun _ => LOW;
     bus := fun _ => {| started := false; tx_addr := 0;
                        tx_buf := []; rx_buf := [] |};
     chip := {| mem := fun _ => 0xFF; ptr := 0; busy := 0 |} |}.

End Board.

(** A default-constructed object has indeterminate fields; these are the
    ones the examples start from. *)
Definition state0 : state Board.board :=
  Build_state {| _address := 0; _wp := 0; _wire := 1%nat |} Board.board0 [].

(** The object after [begin(0x50, 7)] and [writeProtect(false)], and after
    [begin()] with the default arguments, on that board. *)
Definition state1 : state Board.board :=
  snd ((begin (H := Board.hal Board.wiring0) 0x50 7 ;;
        writeProtect (H := Board.hal Board.wiring0) false) state0).

Definition state_nopin : state Board.board :=
  snd (begin (H := Board.hal Board.wiring0) Default None_pin state0).

(** ** Further definitions *)

(** [begin()] with the default arguments of the declaration,
    [bool begin(const uint8_t address = Default, const uint8_t wp = None)]. *)
Definition begin_default {Env : Type} {H : HAL Env} : M Env bool :=
  begin Default None_pin.

(** An event that stays within what the object [d] is bound to: its bus,
    its bus address (one byte requested at a time) and its write-protect
    pin; no pin is configured and no bus is initialised.  Delays are the
    client's. *)
Definition confined (d : MCP24LC512) (ev : event) : bool :=
  match ev with
  | EvPinMode _ _ => false
  | EvWireBegin _ _ => false
  | EvDelay _ => true
  | EvDigitalWrite p _ => p =? _wp d
  | EvWireEnd w _ => Nat.eqb w (_wire d)
  | EvBeginTransmission w a => Nat.eqb w (_wire d) && (a =? _address d)
  | EvWrite w _ => Nat.eqb w (_wire d)
  | EvEndTransmission w _ => Nat.eqb w (_wire d)
  | EvRequestFrom w a n _ =>
      Nat.eqb w (_wire d) && (a =? _address d) && (n =? 1)
  | EvRead w _ => Nat.eqb w (_wire d)
  end.

(** The object of [state1] with write protection asserted, and right
    after a write. *)
Definition state_protected : state Board.board :=
  snd (writeProtect (H := Board.hal Board.wiring0) true state1).

Definition state_busy : state Board.board :=
  snd (write (H := Board.hal Board.wiring0) 0 0x42 state1).

(** * Properties *)

(** ** Arithmetic of the address bytes *)

Lemma to_uint8_range (z : Z) : is_uint8 (to_uint8 z).
Proof. unfold is_uint8, to_uint8. apply Z.mod_pos_bound. lia. Qed.

Lemma to_uint8_byte (z : Z) : is_uint8 z -> to_uint8 z = z.
Proof. unfold is_uint8, to_uint8. intros Hz. apply Z.mod_small. exact Hz. Qed.

Lemma high_byte (A : Z) : is_uint16 A -> to_uint8 (Z.shiftr A 8) = A / 256.
Proof.
  unfold is_uint16. intros HA.
  rewrite Z.shiftr_div_pow2 by lia.
  change (2 ^ 8) with 256.
  apply to_uint8_byte. unfold is_uint8.
  split.
  - apply Z.div_pos; lia.
  - apply Z.div_lt_upper_bound; lia.
Qed.

Lemma address_bytes (A : Z) : 256 * (A / 256) + A mod 256 = A.
Proof. symmetry. apply Z.div_mod. lia. Qed.

(** ** Running the monad *)

Lemma new_events_app (t evs : list event) : new_events t (t ++ evs) = evs.
Proof.
  unfold new_events. induction t as [|ev t IH]; [reflexivity | exact IH].
Qed.

Section MonadRun.

Context {Env : Type} {H : HAL Env}.

Lemma bind_run {A B} (m : M Env A) (k : A -> M Env B) (s : state Env) :
  bind m k s = k (fst (m s)) (snd (m s)).
Proof. unfold bind. destruct (m s); reflexivity. Qed.

Lemma prim_run {A} (f : Env -> A * Env) (ev : A -> event) (s : state Env) :
  prim f ev s =
  (fst (f (env s)),
   Build_state (this s) (snd (f (env s))) (trace s ++ [ev (fst (f (env s)))])).
Proof. unfold prim. destruct (f (env s)); reflexivity. Qed.

End MonadRun.

(** Runs a method body down to the primitives' results. *)
Ltac run_method :=
  repeat (rewrite bind_run; cbn [fst snd get_wire get_address get_wp
                                 set_wire set_address set_wp
                                 this env trace]);
  unfold wire_begin, wire_end, wire_beginTransmission, wire_write,
         wire_endTransmission, wire_requestFrom, wire_read,
         pinMode, digitalWrite, delay, prim_void, ret;
  repeat rewrite prim_run;
  cbn [fst snd this env trace _wire _address _wp];
  repeat rewrite <- app_assoc; cbn [app].

(** ** What each method does, for every environment *)

Section DriverFacts.

Context {Env : Type} {H : HAL Env}.

Lemma write_run (A D : Z) (s : state Env) :
  let w := _wire (this s) in
  let a := _address (this s) in
  let bytes := [to_uint8 (Z.shiftr A 8); to_uint8 A; D] in
  write A D s =
  (fst (close_tx w a bytes (env s)) =? 0,
   Build_state (this s) (snd (close_tx w a bytes (env s)))
     (trace s ++ [EvBeginTransmission w a;
                  EvWrite w (to_uint8 (Z.shiftr A 8));
                  EvWrite w (to_uint8 A);
                  EvWrite w D;
                  EvEndTransmission w (fst (close_tx w a bytes (env s)))])).
Proof.
  intros w a bytes. subst w a bytes. unfold write.
  run_method. reflexivity.
Qed.

Lemma read_run (A : Z) (s : state Env) :
  let w := _wire (this s) in
  let a := _address (this s) in
  let tx := close_tx w a [to_uint8 (Z.shiftr A 8); to_uint8 A] (env s) in
  let rq := tw_requestFrom w a 1 (snd tx) in
  let rd := tw_read w (snd rq) in
  read A s =
  (to_uint8 (fst rd),
   Build_state (this s) (snd rd)
     (trace s ++ [EvBeginTransmission w a;
                  EvWrite w (to_uint8 (Z.shiftr A 8));
                  EvWrite w (to_uint8 A);
                  EvEndTransmission w (fst tx);
                  EvRequestFrom w a 1 (fst rq);
                  EvRead w (fst rd)])).
Proof.
  intros w a tx rq rd. subst w a tx rq rd. unfold read.
  run_method. reflexivity.
Qed.

Lemma begin_wire_run (w : wire_ref) (a p : Z) (s : state Env) :
  begin_wire w a p s =
  (fst (bus_init w p (env s)),
   Build_state {| _address := a; _wp := p; _wire := w |}
     (snd (bus_init w p (env s)))
     (trace s ++ [EvPinMode p OUTPUT;
                  EvWireBegin w (fst (bus_init w p (env s)))])).
Proof. unfold begin_wire. run_method. reflexivity. Qed.

Lemma end_run (s : state Env) :
  let w := _wire (this s) in
  end_ s =
  (fst (tw_end w (env s)),
   Build_state (this s) (snd (tw_end w (env s)))
     (trace s ++ [EvWireEnd w (fst (tw_end w (env s)))])).
Proof. intros w. subst w. unfold end_. run_method. reflexivity. Qed.

Lemma writeProtect_run (on : bool) (s : state Env) :
  let p := _wp (this s) in
  let l := if on then HIGH else LOW in
  writeProtect on s =
  (tt, Build_state (this s) (hal_digitalWrite p l (env s))
         (trace s ++ [EvDigitalWrite p l])).
Proof. intros p l. subst p l. unfold writeProtect. run_method. reflexivity. Qed.

Lemma delay_run (ms : Z) (s : state Env) :
  delay ms s =
  (tt, Build_state (this s) (hal_delay ms (env s)) (trace s ++ [EvDelay ms])).
Proof. reflexivity. Qed.

End DriverFacts.

(** ** [write] *)

Section WriteClaims.

Context {Env : Type} {H : HAL Env}.

(** C2: for a 16-bit address [A] and a byte [D], [write A D] opens one
    transmission to the object's bus address, writes the three bytes
    [A / 256] (high byte), [A mod 256] (low byte) and [D], in this order,
    and closes it; the bus has received exactly these calls.  In
    particular [write 0x1234 0xAB] sends [0x12; 0x34; 0xAB]. *)
Theorem write_sends_high_low_data (s : state Env) (A D : Z) :
  is_uint16 A ->
  let w := _wire (this s) in
  let a := _address (this s) in
  let tx := close_tx w a [A / 256; A mod 256; D] (env s) in
  new_events (trace s) (trace (snd (write A D s))) =
    [EvBeginTransmission w a;
     EvWrite w (A / 256); EvWrite w (A mod 256); EvWrite w D;
     EvEndTransmission w (fst tx)]
  /\ sent_bytes (new_events (trace s) (trace (snd (write A D s)))) =
       [A / 256; A mod 256; D]
  /\ env (snd (write A D s)) = snd tx
  /\ sent_bytes (new_events (trace s) (trace (snd (write 0x1234 0xAB s)))) =
       [0x12; 0x34; 0xAB].
Proof.
  intros HA w a tx. subst w a tx.
  rewrite !write_run. cbn [snd trace env].
  rewrite !new_events_app.
  rewrite (high_byte A HA).
  change (to_uint8 A) with (A mod 256).
  repeat split; reflexivity.
Qed.

(** C3: [write] returns [true] exactly when the status reported by closing
    the transmission is 0, and [false] for any other status; the
    transmission is opened once and closed once, whatever the status: there
    is no second attempt. *)
Theorem write_true_iff_status_zero (s : state Env) (A D : Z) :
  let w := _wire (this s) in
  let a := _address (this s) in
  let tx := close_tx w a [to_uint8 (Z.shiftr A 8); to_uint8 A; D] (env s) in
  let evs := new_events (trace s) (trace (snd (write A D s))) in
  (fst (write A D s) = true <-> fst tx = 0)
  /\ (fst tx <> 0 -> fst (write A D s) = false)
  /\ filter is_endTransmission evs = [EvEndTransmission w (fst tx)]
  /\ filter is_beginTransmission evs = [EvBeginTransmission w a]
  /\ last evs (EvDelay 0) = EvEndTransmission w (fst tx).
Proof.
  intros w a tx evs. subst w a tx evs.
  rewrite write_run. cbn [fst snd trace].
  rewrite new_events_app.
  split; [apply Z.eqb_eq|].
  split; [intros Hst; apply Z.eqb_neq; exact Hst|].
  repeat split; reflexivity.
Qed.

(** C5: the primitives [write] performs are the opening of a transmission,
    three byte writes and the closing, and nothing else: no [delay] is
    among them, and the environment it returns is the one the closing of
    the transmission left. *)
Theorem write_inserts_no_delay (s : state Env) (A D : Z) :
  let w := _wire (this s) in
  let a := _address (this s) in
  let e1 := tw_beginTransmission w a (env s) in
  let e2 := snd (tw_write w (to_uint8 (Z.shiftr A 8)) e1) in
  let e3 := snd (tw_write w (to_uint8 A) e2) in
  let e4 := snd (tw_write w D e3) in
  let evs := new_events (trace s) (trace (snd (write A D s))) in
  evs = [EvBeginTransmission w a;
         EvWrite w (to_uint8 (Z.shiftr A 8));
         EvWrite w (to_uint8 A);
         EvWrite w D;
         EvEndTransmission w (fst (tw_endTransmission w e4))]
  /\ existsb is_delay evs = false
  /\ env (snd (write A D s)) = snd (tw_endTransmission w e4).
Proof.
  intros w a e1 e2 e3 e4 evs. subst w a e1 e2 e3 e4 evs.
  rewrite write_run. cbn [snd trace env].
  rewrite new_events_app.
  repeat split; reflexivity.
Qed.

End WriteClaims.

(** ** [read] *)

Section ReadClaims.

Context {Env : Type} {H : HAL Env}.

(** C4: [read] sends the two address bytes in a transmission whose closing
    status it does not use, then requests exactly 1 byte from the object's
    bus address and returns what the read primitive yields, as a
    [uint8_t]: a yielded byte unchanged, the primitive's no-data value
    like any other.  Replacing the status by any other leaves the result
    and the environment the same, and the result is always a byte: there
    is no separate error result. *)
Theorem read_returns_what_the_bus_yields (s : state Env) (A : Z) :
  let w := _wire (this s) in
  let a := _address (this s) in
  let tx := close_tx w a [to_uint8 (Z.shiftr A 8); to_uint8 A] (env s) in
  let rq := tw_requestFrom w a 1 (snd tx) in
  let rd := tw_read w (snd rq) in
  read A s =
    (to_uint8 (fst rd),
     Build_state (this s) (snd rd)
       (trace s ++ [EvBeginTransmission w a;
                    EvWrite w (to_uint8 (Z.shiftr A 8));
                    EvWrite w (to_uint8 A);
                    EvEndTransmission w (fst tx);
                    EvRequestFrom w a 1 (fst rq);
                    EvRead w (fst rd)]))
  /\ (forall f : wire_ref -> Env -> Z,
        fst (read (H := with_status H f) A s) = fst (read A s)
        /\ env (snd (read (H := with_status H f) A s)) = env (snd (read A s)))
  /\ (is_uint8 (fst rd) -> fst (read A s) = fst rd)
  /\ is_uint8 (fst (read A s)).
Proof.
  intros w a tx rq rd. subst w a tx rq rd.
  split; [apply read_run|].
  split.
  - intros f. rewrite (read_run (H := with_status H f)), read_run.
    split; reflexivity.
  - rewrite read_run. cbn [fst].
    split; [apply to_uint8_byte | apply to_uint8_range].
Qed.

End ReadClaims.

(** ** [begin] *)

Section BeginClaims.

Context {Env : Type} {H : HAL Env}.

(** C6: [begin address wp] and [begin_wire Wire address wp], with [Wire]
    the default bus object, return the same value and leave the same
    object, environment and trace; the object is then bound to [Wire]. *)
Theorem begin_is_begin_wire_on_Wire (address wp : Z) (s : state Env) :
  begin address wp s = begin_wire Wire address wp s
  /\ fst (begin address wp s) = fst (begin_wire Wire address wp s)
  /\ this (snd (begin address wp s)) =
       this (snd (begin_wire Wire address wp s))
  /\ env (snd (begin address wp s)) =
       env (snd (begin_wire Wire address wp s))
  /\ trace (snd (begin address wp s)) =
       trace (snd (begin_wire Wire address wp s))
  /\ _wire (this (snd (begin address wp s))) = Wire.
Proof.
  unfold begin. rewrite begin_wire_run.
  repeat split; reflexivity.
Qed.

(** C7: [begin_wire wire address wp] stores the three arguments in the
    object, makes pin [wp] an output whatever [wp] is (also for the value
    [None_pin] = 0xFF), then initialises the bus, and returns what the bus
    initialisation returned. *)
Theorem begin_wire_stores_configures_initialises
    (wire : wire_ref) (address wp : Z) (s : state Env) :
  let init := tw_begin wire (hal_pinMode wp OUTPUT (env s)) in
  this (snd (begin_wire wire address wp s)) =
    {| _address := address; _wp := wp; _wire := wire |}
  /\ new_events (trace s) (trace (snd (begin_wire wire address wp s))) =
       [EvPinMode wp OUTPUT; EvWireBegin wire (fst init)]
  /\ env (snd (begin_wire wire address wp s)) = snd init
  /\ fst (begin_wire wire address wp s) = fst init
  /\ new_events (trace s) (trace (snd (begin_wire wire address None_pin s))) =
       [EvPinMode 0xFF OUTPUT;
        EvWireBegin wire
          (fst (tw_begin wire (hal_pinMode 0xFF OUTPUT (env s))))].
Proof.
  intros init. subst init.
  rewrite !begin_wire_run. cbn [fst snd this env trace].
  rewrite !new_events_app.
  repeat split; reflexivity.
Qed.

(** C10: on a bus whose initialisation reports the same outcome [r] in
    every environment, what [begin_wire] returns does not depend on the
    address and pin arguments: two runs from the same state that differ
    only in them return the same value, [r]. *)
Theorem begin_wire_result_independent_of_arguments
    (wire : wire_ref) (r : bool) (s : state Env)
    (address1 wp1 address2 wp2 : Z) :
  (forall e : Env, fst (tw_begin wire e) = r) ->
  fst (begin_wire wire address1 wp1 s) = fst (begin_wire wire address2 wp2 s)
  /\ fst (begin_wire wire address1 wp1 s) = r.
Proof.
  intros Hfixed.
  rewrite !begin_wire_run. cbn [fst]. unfold bus_init.
  rewrite !Hfixed. split; reflexivity.
Qed.

End BeginClaims.

(** ** The fields and the write-protect pin *)

Section FieldClaims.

Context {Env : Type} {H : HAL Env}.

Lemma exec_keeps_fields (c : call) (s : state Env) :
  is_begin c = false -> this (exec c s) = this s.
Proof.
  destruct c; cbn [is_begin exec]; intros Hc; try discriminate.
  - rewrite end_run. reflexivity.
  - rewrite write_run. reflexivity.
  - rewrite read_run. reflexivity.
  - rewrite writeProtect_run. reflexivity.
  - reflexivity.
Qed.

Lemma exec_all_keeps_fields (cs : list call) (s : state Env) :
  forallb (fun c => negb (is_begin c)) cs = true ->
  this (exec_all cs s) = this s.
Proof.
  unfold exec_all. revert s.
  induction cs as [|c cs IH]; intros s Hcs; [reflexivity|].
  cbn [forallb] in Hcs. apply andb_true_iff in Hcs. destruct Hcs as [Hc Hcs].
  cbn [fold_left]. rewrite (IH _ Hcs).
  apply exec_keeps_fields. apply negb_true_iff. exact Hc.
Qed.

(** C8: [write], [read], [writeProtect] and [end_] leave the three fields
    of the object as they were; so does every sequence of calls without a
    [begin]; and after a [begin] the fields are the arguments of that
    [begin] until the next one. *)
Theorem fields_assigned_only_by_begin :
  (forall A D (s : state Env), this (snd (write A D s)) = this s)
  /\ (forall A (s : state Env), this (snd (read A s)) = this s)
  /\ (forall on (s : state Env), this (snd (writeProtect on s)) = this s)
  /\ (forall s : state Env, this (snd (end_ s)) = this s)
  /\ (forall cs (s : state Env),
        forallb (fun c => negb (is_begin c)) cs = true ->
        this (exec_all cs s) = this s)
  /\ (forall wire address wp cs (s : state Env),
        forallb (fun c => negb (is_begin c)) cs = true ->
        this (exec_all (CallBeginWire wire address wp :: cs) s) =
          {| _address := address; _wp := wp; _wire := wire |}).
Proof.
  split; [intros; rewrite write_run; reflexivity|].
  split; [intros; rewrite read_run; reflexivity|].
  split; [intros; rewrite writeProtect_run; reflexivity|].
  split; [intros; rewrite end_run; reflexivity|].
  split; [apply exec_all_keeps_fields|].
  intros wire address wp cs s Hcs.
  change (exec_all (CallBeginWire wire address wp :: cs) s)
    with (exec_all cs (exec (CallBeginWire wire address wp) s)).
  rewrite (exec_all_keeps_fields cs _ Hcs).
  cbn [exec]. rewrite begin_wire_run. reflexivity.
Qed.

(** C9: [writeProtect on] performs one primitive, a digital write of
    [HIGH] for [true] and of [LOW] for [false] on the pin stored in [_wp],
    returns nothing, and leaves the object's fields alone.  The pin is not
    inspected: for [None_pin] the write is made on pin 0xFF, and on a
    platform that ignores writes to that pin the environment is left as it
    was. *)
Theorem writeProtect_drives_the_pin (on : bool) (s : state Env) :
  let p := _wp (this s) in
  let l := if on then HIGH else LOW in
  writeProtect on s =
    (tt, Build_state (this s) (hal_digitalWrite p l (env s))
           (trace s ++ [EvDigitalWrite p l]))
  /\ new_events (trace s) (trace (snd (writeProtect on s))) =
       [EvDigitalWrite p l]
  /\ (p = None_pin ->
      new_events (trace s) (trace (snd (writeProtect on s))) =
        [EvDigitalWrite 0xFF l])
  /\ (p = None_pin ->
      (forall l' e, hal_digitalWrite None_pin l' e = e) ->
      env (snd (writeProtect on s)) = env s).
Proof.
  intros p l. subst p l.
  rewrite writeProtect_run. cbn [snd trace env].
  rewrite new_events_app.
  split; [reflexivity|]. split; [reflexivity|].
  split.
  - intros Hp. rewrite Hp. reflexivity.
  - intros Hp Hignored. rewrite Hp. apply Hignored.
Qed.

End FieldClaims.

(** ** The driver on the reference board *)

Section BoardFacts.

Import Board.

Variable wr : wiring.

#[local] Instance board_hal : HAL board := hal wr.

(** Writing bytes into the transmit buffer touches neither the chip nor
    the pins. *)
Lemma fold_write_frame (w : wire_ref) (bytes : list Z) (b : board) :
  let b' := fold_left (fun e x => snd (wwrite w x e)) bytes b in
  chip b' = chip b /\ levels b' = levels b.
Proof.
  revert b. induction bytes as [|x bytes IH]; intros b; [split; reflexivity|].
  cbn [fold_left]. cbv zeta in IH |- *.
  destruct (IH (snd (wwrite w x b))) as [Hc Hl]. rewrite Hc, Hl.
  unfold wwrite. destruct (Nat.ltb _ 128); split; reflexivity.
Qed.

(** As long as the buffer has room, the bytes are appended to it. *)
Lemma fold_write_buffer (w : wire_ref) (bytes : list Z) (b : board) :
  (length (tx_buf (bus b w)) + length bytes <= 128)%nat ->
  bus (fold_left (fun e x => snd (wwrite w x e)) bytes b) w =
    {| started := started (bus b w); tx_addr := tx_addr (bus b w);
       tx_buf := tx_buf (bus b w) ++ bytes; rx_buf := rx_buf (bus b w) |}.
Proof.
  revert b. induction bytes as [|x bytes IH]; intros b Hlen.
  - cbn [fold_left]. rewrite app_nil_r. destruct (bus b w); reflexivity.
  - cbn [fold_left length] in *.
    assert (Hroom : Nat.ltb (length (tx_buf (bus b w))) 128 = true)
      by (apply Nat.ltb_lt; lia).
    assert (Hstep : bus (snd (wwrite w x b)) w =
              {| started := started (bus b w); tx_addr := tx_addr (bus b w);
                 tx_buf := tx_buf (bus b w) ++ [x];
                 rx_buf := rx_buf (bus b w) |}).
    { unfold wwrite. rewrite Hroom. cbn [snd set_bus bus].
      rewrite Nat.eqb_refl. reflexivity. }
    rewrite IH; rewrite Hstep; cbn [started tx_addr tx_buf rx_buf].
    + rewrite <- app_assoc. reflexivity.
    + rewrite length_app. cbn [length]. lia.
Qed.

Lemma after_tx_bus (w : wire_ref) (a : Z) (bytes : list Z) (b : board) :
  (length bytes <= 128)%nat ->
  bus (env_after_tx w a bytes b) w =
    {| started := started (bus b w); tx_addr := a;
       tx_buf := bytes; rx_buf := rx_buf (bus b w) |}.
Proof.
  intros Hlen. unfold env_after_tx.
  cbn [tw_write tw_beginTransmission board_hal hal].
  assert (Hopen : bus (beginTransmission w a b) w =
            {| started := started (bus b w); tx_addr := a;
               tx_buf := []; rx_buf := rx_buf (bus b w) |}).
  { unfold beginTransmission. cbn [set_bus bus].
    rewrite Nat.eqb_refl. reflexivity. }
  rewrite fold_write_buffer; rewrite Hopen; cbn [started tx_addr tx_buf rx_buf].
  - reflexivity.
  - cbn [length]. lia.
Qed.

Lemma after_tx_frame (w : wire_ref) (a : Z) (bytes : list Z) (b : board) :
  chip (env_after_tx w a bytes b) = chip b
  /\ levels (env_after_tx w a bytes b) = levels b.
Proof.
  unfold env_after_tx.
  cbn [tw_write tw_beginTransmission board_hal hal].
  destruct (fold_write_frame w bytes (beginTransmission w a b)) as [Hc Hl].
  cbv zeta in Hc, Hl. rewrite Hc, Hl. split; reflexivity.
Qed.

Lemma after_tx_answers (w : wire_ref) (a : Z) (bytes : list Z) (b : board) :
  (length bytes <= 128)%nat ->
  answers wr (env_after_tx w a bytes b) w
          (tx_addr (bus (env_after_tx w a bytes b) w)) =
  answers wr b w a.
Proof.
  intros Hlen. unfold answers.
  rewrite (after_tx_bus w a bytes b Hlen).
  destruct (after_tx_frame w a bytes b) as [Hc _]. rewrite Hc.
  reflexivity.
Qed.

Lemma after_tx_wp (w : wire_ref) (a : Z) (bytes : list Z) (b : board) :
  wp_asserted wr (env_after_tx w a bytes b) = wp_asserted wr b.
Proof.
  unfold wp_asserted.
  destruct (after_tx_frame w a bytes b) as [_ Hl]. rewrite Hl.
  reflexivity.
Qed.

(** Closing a transmission that carries an address and one data byte, on
    an idle, unprotected chip: the byte is stored and a write cycle of
    5 ms starts. *)
Lemma close_tx_stores (w : wire_ref) (a h l d : Z) (b : board) :
  answers wr b w a = true ->
  wp_asserted wr b = false ->
  close_tx w a [h; l; d] b =
    (0, set_chip (env_after_tx w a [h; l; d] b)
          {| mem := upd (mem (chip b)) (h * 256 + l) d;
             ptr := next_in_page (h * 256 + l);
             busy := 5 |}).
Proof.
  intros Hans Hwp. unfold close_tx.
  cbn [tw_endTransmission board_hal hal]. unfold endTransmission.
  rewrite after_tx_answers by (cbn [length]; lia).
  rewrite Hans, after_tx_bus by (cbn [length]; lia).
  cbn [tx_buf]. rewrite after_tx_wp, Hwp.
  destruct (after_tx_frame w a [h; l; d] b) as [Hc _]. rewrite Hc.
  reflexivity.
Qed.

(** Closing a transmission that carries only an address sets the chip's
    address counter. *)
Lemma close_tx_sets_pointer (w : wire_ref) (a h l : Z) (b : board) :
  answers wr b w a = true ->
  close_tx w a [h; l] b =
    (0, set_chip (env_after_tx w a [h; l] b)
          {| mem := mem (chip b); ptr := h * 256 + l; busy := 0 |}).
Proof.
  intros Hans. unfold close_tx.
  cbn [tw_endTransmission board_hal hal]. unfold endTransmission.
  rewrite after_tx_answers by (cbn [length]; lia).
  rewrite Hans, after_tx_bus by (cbn [length]; lia).
  cbn [tx_buf].
  destruct (after_tx_frame w a [h; l] b) as [Hc _]. rewrite Hc.
  reflexivity.
Qed.

(** While the write cycle lasts the chip does not answer; [wait] lets it
    elapse. *)
Lemma answers_after_write (w : wire_ref) (a : Z) (b : board)
    (c : eeprom) (ms : Z) :
  answers wr b w a = true ->
  0 <= busy c <= ms ->
  answers wr (wait ms (set_chip b c)) w a = true.
Proof.
  unfold answers. intros Hans Hms.
  cbn [wait set_chip bus chip busy].
  apply andb_true_iff in Hans. destruct Hans as [Hans _].
  rewrite Hans. cbn [andb].
  apply Z.eqb_eq. lia.
Qed.

(** Requesting one byte and reading it yields the cell under the address
    counter. *)
Lemma request_one (w : wire_ref) (a : Z) (b : board) :
  answers wr b w a = true ->
  fst (wread w (snd (requestFrom wr w a 1 b))) = mem (chip b) (ptr (chip b)).
Proof.
  intros Hans. unfold requestFrom. rewrite Hans. cbn [snd].
  unfold wread. cbn [set_chip set_bus bus]. rewrite Nat.eqb_refl.
  reflexivity.
Qed.

(** C1: on a board whose 24LC512 is the device the object is bound to,
    started, idle and with write protection not asserted, writing the byte
    [D] at the 16-bit address [A], waiting at least the 5 ms of the write
    cycle and reading [A] returns [D]; the write reports success and the
    byte is in cell [A] of the chip. *)
Theorem write_then_read_returns_the_byte
    (s : state board) (A D ms : Z) :
  is_uint16 A -> is_uint8 D -> 5 <= ms ->
  answers wr (env s) (_wire (this s)) (_address (this s)) = true ->
  wp_asserted wr (env s) = false ->
  fst ((ok <- write A D ;; delay ms ;; v <- read A ;; ret (ok, v)) s)
    = (true, D)
  /\ mem (chip (env (snd (write A D s)))) A = D.
Proof.
  intros HA HD Hms Hans Hwp.
  assert (Hcell : to_uint8 (Z.shiftr A 8) * 256 + to_uint8 A = A).
  { rewrite (high_byte A HA). unfold to_uint8.
    rewrite Z.mul_comm. apply address_bytes. }
  split.
  - rewrite bind_run, write_run. cbn [fst snd].
    rewrite bind_run, delay_run. cbn [fst snd this env trace].
    rewrite bind_run, read_run. cbn [fst snd this env trace]. unfold ret.
    cbn [fst snd].
    rewrite (close_tx_stores _ _ _ _ _ _ Hans Hwp). cbn [fst snd].
    cbn [hal_delay board_hal hal].
    set (b1 := env_after_tx _ _ _ (env s)).
    set (c1 := {| mem := _; ptr := _; busy := 5 |}).
    assert (Hans1 : answers wr b1 (_wire (this s)) (_address (this s)) = true).
    { subst b1. rewrite <- Hans.
      rewrite <- (after_tx_answers (_wire (this s)) (_address (this s))
                    [to_uint8 (Z.shiftr A 8); to_uint8 A; D] (env s))
        by (cbn [length]; lia).
      rewrite after_tx_bus by (cbn [length]; lia). reflexivity. }
    assert (Hans2 : answers wr (wait ms (set_chip b1 c1))
                      (_wire (this s)) (_address (this s)) = true).
    { apply answers_after_write; [exact Hans1 | subst c1; cbn [busy]; lia]. }
    rewrite (close_tx_sets_pointer _ _ _ _ _ Hans2). cbn [fst snd].
    set (b2 := env_after_tx _ _ _ (wait ms (set_chip b1 c1))).
    set (c2 := {| mem := _; ptr := _; busy := 0 |}).
    cbn [tw_requestFrom tw_read board_hal hal].
    assert (Hans3 : answers wr (set_chip b2 c2)
                      (_wire (this s)) (_address (this s)) = true).
    { unfold answers in Hans2 |- *. subst b2 c2.
      cbn [set_chip bus chip busy].
      rewrite after_tx_bus by (cbn [length]; lia). cbn [started].
      apply andb_true_iff in Hans2. destruct Hans2 as [Hans2 _].
      rewrite Hans2. reflexivity. }
    rewrite (request_one _ _ _ Hans3).
    subst c2 c1. cbn [chip wait set_chip mem ptr].
    unfold upd. rewrite !Z.eqb_refl.
    rewrite (to_uint8_byte D HD). reflexivity.
  - rewrite write_run. cbn [snd env].
    rewrite (close_tx_stores _ _ _ _ _ _ Hans Hwp).
    cbn [snd set_chip chip mem]. rewrite Hcell.
    unfold upd. rewrite Z.eqb_refl. reflexivity.
Qed.

End BoardFacts.

(** ** Instances on the reference board *)

Lemma write_then_read_returns_the_byte_witness :
  is_uint16 0 /\ is_uint8 0x42 /\ 5 <= 5
  /\ fst ((ok <- write (H := Board.hal Board.wiring0) 0 0x42 ;;
           delay (H := Board.hal Board.wiring0) 5 ;;
           v <- read (H := Board.hal Board.wiring0) 0 ;;
           ret (ok, v)) state1) = (true, 0x42).
Proof.
  assert (H16 : is_uint16 0) by (unfold is_uint16; lia).
  assert (H8 : is_uint8 0x42) by (unfold is_uint8; lia).
  assert (H5 : 5 <= 5) by lia.
  split; [exact H16|]. split; [exact H8|]. split; [exact H5|].
  refine (proj1 (write_then_read_returns_the_byte Board.wiring0 state1
                   0 0x42 5 H16 H8 H5 _ _)); reflexivity.
Defined.

Lemma write_sends_high_low_data_witness :
  is_uint16 0x1234
  /\ sent_bytes
       (new_events (trace state1)
          (trace (snd (write (H := Board.hal Board.wiring0)
                         0x1234 0xAB state1))))
     = [0x12; 0x34; 0xAB].
Proof.
  assert (H16 : is_uint16 0x1234) by (unfold is_uint16; lia).
  split; [exact H16|].
  destruct (write_sends_high_low_data (H := Board.hal Board.wiring0)
              state1 0x1234 0xAB H16) as (_ & Hsent & _).
  exact Hsent.
Defined.

Lemma begin_wire_result_independent_of_arguments_witness :
  (forall e : Board.board, fst (Board.wbegin Wire e) = true)
  /\ fst (begin_wire (H := Board.hal Board.wiring0) Wire 0x50 7 state0) =
     fst (begin_wire (H := Board.hal Board.wiring0) Wire 0x51 None_pin state0).
Proof.
  split; [intros e; reflexivity|].
  apply (begin_wire_result_independent_of_arguments
           (H := Board.hal Board.wiring0) Wire true state0 0x50 7 0x51 None_pin).
  intros e. reflexivity.
Defined.

Lemma writeProtect_drives_the_pin_witness :
  _wp (this state_nopin) = None_pin
  /\ (forall l e, Board.gpio_write None_pin l e = e)
  /\ env (snd (writeProtect (H := Board.hal Board.wiring0) true state_nopin))
     = env state_nopin.
Proof.
  split; [reflexivity|]. split; [intros l e; reflexivity|].
  destruct (writeProtect_drives_the_pin (H := Board.hal Board.wiring0)
              true state_nopin) as (_ & _ & _ & Hsame).
  apply Hsame; [reflexivity | intros l e; reflexivity].
Defined.

Lemma fields_assigned_only_by_begin_witness :
  this (exec_all (H := Board.hal Board.wiring0)
          [CallBeginWire Wire 0x50 7; CallWriteProtect false;
           CallWrite 0 0x42; CallDelay 5; CallRead 0; CallEnd] state0)
  = {| _address := 0x50; _wp := 7; _wire := Wire |}.
Proof.
  destruct (fields_assigned_only_by_begin (H := Board.hal Board.wiring0))
    as (_ & _ & _ & _ & _ & Hseq).
  apply Hseq. reflexivity.
Defined.

(** Without the wait the chip is still in its write cycle: the read gets
    no byte, and the no-data value -1 comes back as 0xFF. *)
Example read_during_write_cycle :
  fst ((write (H := Board.hal Board.wiring0) 0 0x42 ;;
        read (H := Board.hal Board.wiring0) 0) state1) = 0xFF
  /\ last (trace (snd ((write (H := Board.hal Board.wiring0) 0 0x42 ;;
                        read (H := Board.hal Board.wiring0) 0) state1)))
          (EvDelay 0) = EvRead Wire (-1).
Proof. split; reflexivity. Qed.

(** With write protection asserted the write is acknowledged and the cell
    keeps its value. *)
Example protected_write_is_not_stored :
  fst ((write (H := Board.hal Board.wiring0) 0 0x42 ;;
        delay (H := Board.hal Board.wiring0) 5 ;;
        writeProtect (H := Board.hal Board.wiring0) true ;;
        ok <- write (H := Board.hal Board.wiring0) 0 0x43 ;;
        delay (H := Board.hal Board.wiring0) 5 ;;
        v <- read (H := Board.hal Board.wiring0) 0 ;;
        ret (ok, v)) state1) = (true, 0x42).
Proof. reflexivity. Qed.

(** The scenario of the specification, from a fresh object. *)
Example scenario :
  fst ((b <- begin (H := Board.hal Board.wiring0) 0x50 7 ;;
        writeProtect (H := Board.hal Board.wiring0) false ;;
        ok <- write (H := Board.hal Board.wiring0) 0x0000 0x42 ;;
        delay (H := Board.hal Board.wiring0) 5 ;;
        v <- read (H := Board.hal Board.wiring0) 0x0000 ;;
        ret (b, ok, v)) state0) = (true, true, 0x42).
Proof. reflexivity. Qed.

(** * Further properties of the driver, for every environment *)

Section Composition.

Context {Env : Type} {H : HAL Env}.

Lemma address_pair_injective (A B : Z) :
  is_uint16 A -> is_uint16 B ->
  to_uint8 (Z.shiftr A 8) = to_uint8 (Z.shiftr B 8) ->
  to_uint8 A = to_uint8 B ->
  A = B.
Proof.
  intros HA HB Hhi Hlo.
  rewrite (high_byte A HA), (high_byte B HB) in Hhi.
  unfold to_uint8 in Hlo.
  rewrite <- (address_bytes A), <- (address_bytes B), Hhi, Hlo.
  reflexivity.
Qed.

(** X1: [read A] sends the two address bytes that [write A D] sends first,
    and for 16-bit addresses these two bytes determine the address: reads
    (or writes) whose address bytes are equal have the same address. *)
Theorem address_bytes_identify_the_cell
    (s s' : state Env) (A B D E : Z) :
  is_uint16 A -> is_uint16 B ->
  let sent_r := fun a st =>
    sent_bytes (new_events (trace st) (trace (snd (read a st)))) in
  let sent_w := fun a d st =>
    sent_bytes (new_events (trace st) (trace (snd (write a d st)))) in
  sent_r A s = firstn 2 (sent_w A D s)
  /\ (sent_r A s = sent_r B s' -> A = B)
  /\ (firstn 2 (sent_w A D s) = firstn 2 (sent_w B E s') -> A = B).
Proof.
  intros HA HB sent_r sent_w. subst sent_r sent_w. cbv beta.
  rewrite !read_run, !write_run. cbn [snd trace].
  rewrite !new_events_app. cbn [sent_bytes sent_byte firstn].
  split; [reflexivity|].
  split; intros Heq; injection Heq as Hhi Hlo;
    exact (address_pair_injective A B HA HB Hhi Hlo).
Qed.

(** One call that is not a [begin] only adds confined events. *)
Lemma exec_confined (c : call) (s : state Env) :
  is_begin c = false ->
  exists evs, trace (exec c s) = trace s ++ evs
              /\ forallb (confined (this s)) evs = true.
Proof.
  destruct c; cbn [is_begin exec]; intros Hc; try discriminate.
  - rewrite end_run. eexists. split; [reflexivity|].
    cbn [forallb confined]. rewrite Nat.eqb_refl. reflexivity.
  - rewrite write_run. eexists. split; [reflexivity|].
    cbn [forallb confined]. rewrite Nat.eqb_refl, Z.eqb_refl. reflexivity.
  - rewrite read_run. eexists. split; [reflexivity|].
    cbn [forallb confined]. rewrite Nat.eqb_refl, Z.eqb_refl. reflexivity.
  - rewrite writeProtect_run. eexists. split; [reflexivity|].
    cbn [forallb confined]. rewrite Z.eqb_refl. reflexivity.
  - rewrite delay_run. eexists. split; [reflexivity|]. reflexivity.
Qed.

Lemma exec_all_confined (cs : list call) (s : state Env) :
  forallb (fun c => negb (is_begin c)) cs = true ->
  exists evs, trace (exec_all cs s) = trace s ++ evs
              /\ forallb (confined (this s)) evs = true.
Proof.
  revert s. induction cs as [|c cs IH]; intros s Hcs.
  - exists []. split; [symmetry; apply app_nil_r | reflexivity].
  - cbn [forallb] in Hcs. apply andb_true_iff in Hcs.
    destruct Hcs as [Hc Hcs]. apply negb_true_iff in Hc.
    change (exec_all (c :: cs) s) with (exec_all cs (exec c s)).
    destruct (exec_confined c s Hc) as (evs1 & Ht1 & Hok1).
    destruct (IH (exec c s) Hcs) as (evs2 & Ht2 & Hok2).
    rewrite (exec_keeps_fields c s Hc) in Hok2.
    exists (evs1 ++ evs2). split.
    + rewrite Ht2, Ht1, app_assoc. reflexivity.
    + rewrite forallb_app, Hok1, Hok2. reflexivity.
Qed.

(** X2: between two [begin]s the driver stays on what it is bound to.
    Every primitive that a sequence of [write], [read], [writeProtect] and
    [end] calls performs is on the bus stored in [_wire]; every
    transmission and every request is addressed to [_address], a request
    asks for one byte; every digital write is on the pin [_wp]; no pin is
    configured and no bus is initialised. *)
Theorem calls_stay_on_the_bound_device (cs : list call) (s : state Env) :
  forallb (fun c => negb (is_begin c)) cs = true ->
  forallb (confined (this s))
          (new_events (trace s) (trace (exec_all cs s))) = true.
Proof.
  intros Hcs.
  destruct (exec_all_confined cs s Hcs) as (evs & Ht & Hok).
  rewrite Ht, new_events_app. exact Hok.
Qed.

(** X3: [end] closes the bus that the last [begin] was given, whatever
    was called in between, and returns what closing that bus returned; it
    does nothing else and keeps the fields, so the object still names the
    closed bus afterwards. *)
Theorem end_closes_the_bus_of_begin
    (wire : wire_ref) (address wp : Z) (cs : list call) (s : state Env) :
  forallb (fun c => negb (is_begin c)) cs = true ->
  let s1 := exec_all (CallBeginWire wire address wp :: cs) s in
  fst (end_ s1) = fst (tw_end wire (env s1))
  /\ new_events (trace s1) (trace (snd (end_ s1))) =
       [EvWireEnd wire (fst (tw_end wire (env s1)))]
  /\ env (snd (end_ s1)) = snd (tw_end wire (env s1))
  /\ _wire (this (snd (end_ s1))) = wire.
Proof.
  intros Hcs s1.
  assert (Hthis : this s1 = {| _address := address; _wp := wp; _wire := wire |}).
  { subst s1.
    change (exec_all (CallBeginWire wire address wp :: cs) s)
      with (exec_all cs (exec (CallBeginWire wire address wp) s)).
    rewrite (exec_all_keeps_fields cs _ Hcs).
    cbn [exec]. rewrite begin_wire_run. reflexivity. }
  rewrite end_run. cbn [fst snd trace env this].
  rewrite new_events_app, Hthis. cbn [_wire].
  repeat split; reflexivity.
Qed.

(** X4: after [begin()] with the default arguments the object is bound to
    [Wire] at address 0x50 with [_wp] = 0xFF, pin 0xFF has been made an
    output, and every later [writeProtect], whatever was called in
    between, writes to pin 0xFF: the value [None] is not treated as the
    absence of a pin. *)
Theorem default_begin_drives_pin_255
    (on : bool) (cs : list call) (s : state Env) :
  forallb (fun c => negb (is_begin c)) cs = true ->
  let s1 := exec_all cs (snd (begin_default s)) in
  this s1 = {| _address := 0x50; _wp := 0xFF; _wire := Wire |}
  /\ new_events (trace s) (trace (snd (begin_default s))) =
       [EvPinMode 0xFF OUTPUT;
        EvWireBegin Wire (fst (bus_init Wire 0xFF (env s)))]
  /\ new_events (trace s1) (trace (snd (writeProtect on s1))) =
       [EvDigitalWrite 0xFF (if on then HIGH else LOW)].
Proof.
  intros Hcs s1.
  assert (Hthis : this s1 = {| _address := 0x50; _wp := 0xFF; _wire := Wire |}).
  { subst s1. rewrite (exec_all_keeps_fields cs _ Hcs).
    unfold begin_default, begin. rewrite begin_wire_run. reflexivity. }
  split; [exact Hthis|]. split.
  - unfold begin_default, begin. rewrite begin_wire_run. cbn [snd trace].
    rewrite new_events_app. reflexivity.
  - rewrite writeProtect_run. cbn [snd trace].
    rewrite new_events_app, Hthis. reflexivity.
Qed.

End Composition.

(** * Further properties of the driver on the reference board *)

Section BoardBehaviour.

Import Board.

Variable wr : wiring.

#[local] Hint Extern 0 (HAL board) => exact (board_hal wr)
  : typeclass_instances.

Lemma answers_after_tx (w : wire_ref) (a a' : Z) (bytes : list Z)
    (b : board) :
  (length bytes <= 128)%nat ->
  answers wr (env_after_tx w a bytes b) w a' = answers wr b w a'.
Proof.
  intros Hlen. unfold answers.
  rewrite (after_tx_bus wr w a bytes b Hlen).
  destruct (after_tx_frame wr w a bytes b) as [Hc _]. rewrite Hc.
  reflexivity.
Qed.

(** A transmission that nobody acknowledges is closed with status 2 and
    changes nothing beyond the transmit buffer. *)
Lemma close_tx_silent (w : wire_ref) (a : Z) (bytes : list Z) (b : board) :
  (length bytes <= 128)%nat ->
  answers wr b w a = false ->
  close_tx w a bytes b = (2, env_after_tx w a bytes b).
Proof.
  intros Hlen Hans. unfold close_tx.
  cbn [tw_endTransmission board_hal hal]. unfold endTransmission.
  rewrite (after_tx_answers wr w a bytes b Hlen), Hans. reflexivity.
Qed.

Lemma request_silent (w : wire_ref) (a n : Z) (b : board) :
  answers wr b w a = false ->
  fst (wread w (snd (requestFrom wr w a n b))) = -1.
Proof.
  intros Hans. unfold requestFrom. rewrite Hans. cbn [snd].
  unfold wread. cbn [set_bus bus]. rewrite Nat.eqb_refl. reflexivity.
Qed.

(** What the bus primitives of a read leave of the chip's cells. *)
Lemma wread_chip (w : wire_ref) (b : board) :
  chip (snd (wread w b)) = chip b.
Proof. unfold wread. destruct (rx_buf (bus b w)); reflexivity. Qed.

Lemma requestFrom_mem (w : wire_ref) (a n : Z) (b : board) :
  mem (chip (snd (requestFrom wr w a n b))) = mem (chip b).
Proof. unfold requestFrom. destruct (answers wr b w a); reflexivity. Qed.

Lemma close_address_mem (w : wire_ref) (a h l : Z) (b : board) :
  mem (chip (snd (close_tx w a [h; l] b))) = mem (chip b).
Proof.
  unfold close_tx. cbn [tw_endTransmission board_hal hal].
  unfold endTransmission.
  rewrite (after_tx_bus wr w a [h; l] b) by (cbn [length]; lia).
  cbn [tx_addr tx_buf].
  destruct (after_tx_frame wr w a [h; l] b) as [Hc _].
  destruct (answers wr _ w a); cbn [snd set_chip chip mem]; rewrite Hc;
    reflexivity.
Qed.

Lemma cell_of_address (A : Z) :
  is_uint16 A -> to_uint8 (Z.shiftr A 8) * 256 + to_uint8 A = A.
Proof.
  intros HA. rewrite (high_byte A HA). unfold to_uint8.
  rewrite Z.mul_comm. apply address_bytes.
Qed.

Lemma read_keeps_cells_aux (s : state board) (A : Z) :
  mem (chip (env (snd (read A s)))) = mem (chip (env s)).
Proof.
  rewrite read_run. cbn [snd env].
  cbn [tw_read tw_requestFrom board_hal hal].
  rewrite wread_chip, requestFrom_mem, close_address_mem. reflexivity.
Qed.

Lemma close_address_busy (w : wire_ref) (a h l : Z) (b : board) :
  busy (chip (snd (close_tx w a [h; l] b))) = busy (chip b).
Proof.
  unfold close_tx. cbn [tw_endTransmission board_hal hal].
  unfold endTransmission.
  rewrite (after_tx_answers wr) by (cbn [length]; lia).
  rewrite (after_tx_bus wr w a [h; l] b) by (cbn [length]; lia).
  cbn [tx_buf].
  destruct (after_tx_frame wr w a [h; l] b) as [Hc _].
  destruct (answers wr b w a) eqn:Hans; cbn [snd set_chip chip busy].
  - unfold answers in Hans. apply andb_true_iff in Hans.
    destruct Hans as [_ Hidle]. apply Z.eqb_eq in Hidle.
    symmetry. exact Hidle.
  - rewrite Hc. reflexivity.
Qed.

Lemma requestFrom_busy (w : wire_ref) (a n : Z) (b : board) :
  busy (chip (snd (requestFrom wr w a n b))) = busy (chip b).
Proof. unfold requestFrom. destruct (answers wr b w a); reflexivity. Qed.

(** X5: [read] never changes what the chip stores and never starts a
    write cycle, whether the chip answers or not. *)
Theorem read_keeps_the_cells (s : state board) (A : Z) :
  mem (chip (env (snd (read A s)))) = mem (chip (env s))
  /\ busy (chip (env (snd (read A s)))) = busy (chip (env s)).
Proof.
  split; [apply read_keeps_cells_aux|].
  rewrite read_run. cbn [snd env].
  cbn [tw_read tw_requestFrom board_hal hal].
  rewrite wread_chip, requestFrom_busy, close_address_busy.
  reflexivity.
Qed.

Lemma answered_read (s : state board) (A : Z) :
  is_uint16 A ->
  answers wr (env s) (_wire (this s)) (_address (this s)) = true ->
  fst (read A s) = to_uint8 (mem (chip (env s)) A).
Proof.
  intros HA Hans.
  rewrite read_run. cbn [fst].
  rewrite (close_tx_sets_pointer wr _ _ _ _ _ Hans). cbn [snd].
  cbn [tw_read tw_requestFrom board_hal hal].
  rewrite request_one.
  - cbn [set_chip chip mem ptr]. rewrite (cell_of_address A HA).
    reflexivity.
  - unfold answers in Hans |- *. cbn [set_chip bus chip busy].
    rewrite after_tx_bus by (cbn [length]; lia). cbn [started].
    apply andb_true_iff in Hans. destruct Hans as [Hans _].
    rewrite Hans. reflexivity.
Qed.

(** X6: when the device the object is bound to answers, [read A] returns
    the content of cell [A] of the chip, for every 16-bit [A] (as a
    [uint8_t]: unchanged when the cell holds a byte). *)
Theorem read_returns_the_cell (s : state board) (A : Z) :
  is_uint16 A ->
  answers wr (env s) (_wire (this s)) (_address (this s)) = true ->
  fst (read A s) = to_uint8 (mem (chip (env s)) A)
  /\ (is_uint8 (mem (chip (env s)) A) ->
      fst (read A s) = mem (chip (env s)) A).
Proof.
  intros HA Hans. split; [exact (answered_read s A HA Hans)|].
  intros Hbyte. rewrite (answered_read s A HA Hans).
  apply to_uint8_byte. exact Hbyte.
Qed.

Lemma unanswered (s : state board) (A D : Z) :
  answers wr (env s) (_wire (this s)) (_address (this s)) = false ->
  fst (write A D s) = false
  /\ chip (env (snd (write A D s))) = chip (env s)
  /\ fst (read A s) = 0xFF.
Proof.
  intros Hans. split; [|split].
  - rewrite write_run. cbn [fst].
    rewrite close_tx_silent by (cbn [length]; lia || exact Hans).
    reflexivity.
  - rewrite write_run. cbn [snd env].
    rewrite close_tx_silent by (cbn [length]; lia || exact Hans).
    cbn [snd]. apply (after_tx_frame wr).
  - rewrite read_run. cbn [fst].
    rewrite close_tx_silent by (cbn [length]; lia || exact Hans).
    cbn [snd]. cbn [tw_read tw_requestFrom board_hal hal].
    rewrite request_silent; [reflexivity|].
    rewrite answers_after_tx by (cbn [length]; lia). exact Hans.
Qed.

(** X7: when the device the object is bound to does not answer (no such
    device on the bus, bus not started, chip in its write cycle), [write]
    returns [false], [read] returns 0xFF, the no-data value -1 as a
    [uint8_t], whatever the cell holds, and neither changes the chip. *)
Theorem silent_device (s : state board) (A D : Z) :
  answers wr (env s) (_wire (this s)) (_address (this s)) = false ->
  fst (write A D s) = false
  /\ chip (env (snd (write A D s))) = chip (env s)
  /\ fst (read A s) = 0xFF
  /\ chip (env (snd (read A s))) = chip (env s).
Proof.
  intros Hans.
  destruct (unanswered s A D Hans) as (Hw & Hc & Hr).
  split; [exact Hw|]. split; [exact Hc|]. split; [exact Hr|].
  rewrite read_run. cbn [snd env].
  rewrite close_tx_silent by (cbn [length]; lia || exact Hans).
  cbn [snd]. cbn [tw_read tw_requestFrom board_hal hal].
  rewrite wread_chip. unfold requestFrom.
  rewrite answers_after_tx by (cbn [length]; lia). rewrite Hans.
  cbn [snd set_bus chip]. apply (after_tx_frame wr).
Qed.

Lemma stored_write (s : state board) (A D : Z) :
  is_uint16 A ->
  answers wr (env s) (_wire (this s)) (_address (this s)) = true ->
  wp_asserted wr (env s) = false ->
  fst (write A D s) = true
  /\ this (snd (write A D s)) = this s
  /\ env (snd (write A D s)) =
       set_chip (env_after_tx (_wire (this s)) (_address (this s))
                   [to_uint8 (Z.shiftr A 8); to_uint8 A; D] (env s))
         {| mem := upd (mem (chip (env s))) A D;
            ptr := next_in_page A;
            busy := 5 |}.
Proof.
  intros HA Hans Hwp.
  rewrite write_run. cbn [fst snd this env].
  rewrite (close_tx_stores wr _ _ _ _ _ _ Hans Hwp). cbn [fst snd].
  rewrite (cell_of_address A HA).
  repeat split; reflexivity.
Qed.

(** X8: on an answering device with write protection not asserted,
    [write A D] returns [true], puts [D] in cell [A] and leaves every other
    cell as it was; the chip is then in its write cycle. *)
Theorem write_changes_only_its_cell (s : state board) (A D : Z) :
  is_uint16 A ->
  answers wr (env s) (_wire (this s)) (_address (this s)) = true ->
  wp_asserted wr (env s) = false ->
  fst (write A D s) = true
  /\ (forall k, mem (chip (env (snd (write A D s)))) k =
                if k =? A then D else mem (chip (env s)) k)
  /\ busy (chip (env (snd (write A D s)))) = 5.
Proof.
  intros HA Hans Hwp.
  destruct (stored_write s A D HA Hans Hwp) as (Hok & _ & Henv).
  rewrite Henv. cbn [set_chip chip mem busy].
  split; [exact Hok|]. split; [intros k; reflexivity | reflexivity].
Qed.

Lemma close_tx_protected (w : wire_ref) (a h l d : Z) (b : board) :
  answers wr b w a = true ->
  wp_asserted wr b = true ->
  close_tx w a [h; l; d] b =
    (0, set_chip (env_after_tx w a [h; l; d] b)
          {| mem := mem (chip b); ptr := h * 256 + l; busy := 0 |}).
Proof.
  intros Hans Hwp. unfold close_tx.
  cbn [tw_endTransmission board_hal hal]. unfold endTransmission.
  rewrite (after_tx_answers wr) by (cbn [length]; lia).
  rewrite Hans, (after_tx_bus wr) by (cbn [length]; lia).
  cbn [tx_buf]. rewrite (after_tx_wp wr), Hwp.
  destruct (after_tx_frame wr w a [h; l; d] b) as [Hc _]. rewrite Hc.
  reflexivity.
Qed.

(** X9: with write protection asserted, [write] on an answering device
    still returns [true], but no cell changes and no write cycle starts:
    the return value does not tell that nothing was stored. *)
Theorem protected_write_reports_success (s : state board) (A D : Z) :
  answers wr (env s) (_wire (this s)) (_address (this s)) = true ->
  wp_asserted wr (env s) = true ->
  fst (write A D s) = true
  /\ mem (chip (env (snd (write A D s)))) = mem (chip (env s))
  /\ busy (chip (env (snd (write A D s)))) = 0.
Proof.
  intros Hans Hwp.
  rewrite write_run. cbn [fst snd env].
  rewrite (close_tx_protected _ _ _ _ _ _ Hans Hwp).
  repeat split; reflexivity.
Qed.

Lemma gpio_write_answers (p : Z) (l : level) (b : board)
    (w : wire_ref) (a : Z) :
  answers wr (gpio_write p l b) w a = answers wr b w a.
Proof. unfold gpio_write. destruct (valid_pin p); reflexivity. Qed.

(** X10: when [_wp] is a pin of the board and this pin drives the chip's
    WP input, [writeProtect on] asserts the protection exactly when [on]
    is [true], whatever the level was before, and does not change whether
    the device answers. *)
Theorem writeProtect_sets_the_protection (s : state board) (on : bool) :
  chip_wp wr = Some (_wp (this s)) ->
  valid_pin (_wp (this s)) = true ->
  wp_asserted wr (env (snd (writeProtect on s))) = on
  /\ (forall w a, answers wr (env (snd (writeProtect on s))) w a =
                  answers wr (env s) w a).
Proof.
  intros Hwired Hvalid.
  rewrite writeProtect_run. cbn [snd env].
  cbn [hal_digitalWrite board_hal hal].
  split.
  - unfold wp_asserted, gpio_write. rewrite Hwired, Hvalid.
    cbn [levels]. unfold upd. rewrite Z.eqb_refl.
    destruct on; reflexivity.
  - intros w a. apply gpio_write_answers.
Qed.

(** X11: right after a stored write the chip is in its write cycle: a
    second [write] made without waiting returns [false] and stores
    nothing, and a [read] made without waiting returns 0xFF. *)
Theorem no_operation_during_the_write_cycle
    (s : state board) (A D B E : Z) :
  is_uint16 A ->
  answers wr (env s) (_wire (this s)) (_address (this s)) = true ->
  wp_asserted wr (env s) = false ->
  fst ((write A D ;; write B E) s) = false
  /\ chip (env (snd ((write A D ;; write B E) s))) =
       chip (env (snd (write A D s)))
  /\ fst ((write A D ;; read B) s) = 0xFF.
Proof.
  intros HA Hans Hwp.
  destruct (stored_write s A D HA Hans Hwp) as (_ & Hthis & Henv).
  assert (Hbusy : answers wr (env (snd (write A D s)))
                    (_wire (this (snd (write A D s))))
                    (_address (this (snd (write A D s)))) = false).
  { rewrite Henv. unfold answers. cbn [set_chip chip busy].
    apply andb_false_r. }
  destruct (unanswered (snd (write A D s)) B E Hbusy) as (Hw & Hc & Hr).
  rewrite !bind_run. repeat split; assumption.
Qed.

(** After [end] the bus is stopped, and a call that is not a [begin]
    leaves it stopped and the cells as they are. *)
Lemma stopped_silent (b : board) (w : wire_ref) (a : Z) :
  started (bus b w) = false -> answers wr b w a = false.
Proof. intros Hst. unfold answers. rewrite Hst. reflexivity. Qed.

Lemma wread_started (w : wire_ref) (b : board) :
  started (bus (snd (wread w b)) w) = started (bus b w).
Proof.
  unfold wread. destruct (rx_buf (bus b w)); [reflexivity|].
  cbn [snd set_bus bus]. rewrite Nat.eqb_refl. reflexivity.
Qed.

Lemma exec_stopped (c : call) (s : state board) :
  is_begin c = false ->
  started (bus (env s) (_wire (this s))) = false ->
  started (bus (env (exec c s)) (_wire (this s))) = false
  /\ mem (chip (env (exec c s))) = mem (chip (env s)).
Proof.
  destruct c; cbn [is_begin exec]; intros Hc Hst; try discriminate.
  - rewrite end_run. cbn [snd env]. cbn [tw_end board_hal hal].
    unfold wend. cbn [snd set_bus bus chip]. rewrite Nat.eqb_refl.
    split; reflexivity.
  - rewrite write_run. cbn [snd env].
    rewrite close_tx_silent
      by (cbn [length]; lia || (apply stopped_silent; exact Hst)).
    cbn [snd]. rewrite (after_tx_bus wr) by (cbn [length]; lia).
    cbn [started].
    destruct (after_tx_frame wr (_wire (this s)) (_address (this s))
                [to_uint8 (Z.shiftr address 8); to_uint8 address; data]
                (env s)) as [Hchip _].
    rewrite Hchip. split; [exact Hst | reflexivity].
  - split; [|apply read_keeps_cells_aux].
    rewrite read_run. cbn [snd env].
    rewrite close_tx_silent
      by (cbn [length]; lia || (apply stopped_silent; exact Hst)).
    cbn [snd]. cbn [tw_read tw_requestFrom board_hal hal].
    rewrite wread_started. unfold requestFrom.
    rewrite answers_after_tx by (cbn [length]; lia).
    rewrite (stopped_silent _ _ _ Hst).
    cbn [snd set_bus bus]. rewrite Nat.eqb_refl. cbn [started].
    rewrite (after_tx_bus wr) by (cbn [length]; lia). exact Hst.
  - rewrite writeProtect_run. cbn [snd env].
    cbn [hal_digitalWrite board_hal hal]. unfold gpio_write.
    destruct (valid_pin _); split; (exact Hst || reflexivity).
  - rewrite delay_run. cbn [snd env]. cbn [hal_delay board_hal hal].
    split; [exact Hst | reflexivity].
Qed.

Lemma exec_all_stopped (cs : list call) (s : state board) :
  forallb (fun c => negb (is_begin c)) cs = true ->
  started (bus (env s) (_wire (this s))) = false ->
  this (exec_all cs s) = this s
  /\ started (bus (env (exec_all cs s)) (_wire (this s))) = false
  /\ mem (chip (env (exec_all cs s))) = mem (chip (env s)).
Proof.
  revert s. induction cs as [|c cs IH]; intros s Hcs Hst.
  - split; [reflexivity | split; [exact Hst | reflexivity]].
  - cbn [forallb] in Hcs. apply andb_true_iff in Hcs.
    destruct Hcs as [Hc Hcs]. apply negb_true_iff in Hc.
    change (exec_all (c :: cs) s) with (exec_all cs (exec c s)).
    destruct (exec_stopped c s Hc Hst) as [Hst1 Hmem1].
    pose proof (exec_keeps_fields c s Hc) as Hthis1.
    rewrite <- Hthis1 in Hst1.
    destruct (IH (exec c s) Hcs Hst1) as (Hthis & Hst2 & Hmem2).
    rewrite Hthis1 in Hthis, Hst2.
    rewrite Hthis, Hmem2, Hmem1.
    split; [reflexivity | split; [exact Hst2 | reflexivity]].
Qed.

(** X12: after [end], and until the next [begin], nothing reaches the
    chip: whatever sequence of [write], [read], [writeProtect] and [end]
    calls follows, the cells keep the content they had at the [end], a
    [write] returns [false] and a [read] returns 0xFF.  The driver keeps
    no record of having been ended: it issues the same primitives, and the
    stopped bus refuses them. *)
Theorem nothing_is_done_after_end
    (cs : list call) (s : state board) (A D : Z) :
  forallb (fun c => negb (is_begin c)) cs = true ->
  let s1 := exec_all cs (snd (end_ s)) in
  mem (chip (env s1)) = mem (chip (env s))
  /\ fst (write A D s1) = false
  /\ mem (chip (env (snd (write A D s1)))) = mem (chip (env s))
  /\ fst (read A s1) = 0xFF.
Proof.
  intros Hcs s1.
  assert (Hend : this (snd (end_ s)) = this s
                 /\ started (bus (env (snd (end_ s))) (_wire (this s))) = false
                 /\ mem (chip (env (snd (end_ s)))) = mem (chip (env s))).
  { rewrite end_run. cbn [snd this env]. cbn [tw_end board_hal hal].
    unfold wend. cbn [snd set_bus bus chip]. rewrite Nat.eqb_refl.
    repeat split; reflexivity. }
  destruct Hend as (Hthis0 & Hst0 & Hmem0).
  rewrite <- Hthis0 in Hst0.
  destruct (exec_all_stopped cs (snd (end_ s)) Hcs Hst0)
    as (Hthis1 & Hst1 & Hmem1).
  fold s1 in Hthis1, Hst1, Hmem1.
  rewrite <- Hthis1 in Hst1.
  destruct (unanswered s1 A D (stopped_silent _ _ _ Hst1))
    as (Hw & Hc & Hr).
  rewrite Hc, Hmem1, Hmem0. repeat split; assumption.
Qed.

(** X13: the whole life cycle.  From any state of an idle chip whose write
    protection is not asserted, [begin] on the chip's bus and address (any
    pin), then [write A D], a wait of at least 5 ms and [read A] return
    [true], [true] and [D]: nothing that an earlier use left in the object
    or in the bus buffers matters. *)
Theorem begin_write_wait_read
    (s : state board) (p A D ms : Z) :
  is_uint16 A -> is_uint8 D -> 5 <= ms ->
  busy (chip (env s)) = 0 ->
  wp_asserted wr (env s) = false ->
  fst ((b <- begin_wire (chip_bus wr) (chip_addr wr) p ;;
        ok <- write A D ;;
        delay ms ;;
        v <- read A ;;
        ret (b, ok, v)) s) = (true, true, D).
Proof.
  intros HA HD Hms Hidle Hwp.
  rewrite bind_run, begin_wire_run. cbn [fst snd]. unfold bus_init.
  cbn [tw_begin hal_pinMode board_hal hal].
  set (s1 := Build_state _ _ _).
  assert (Hans1 : answers wr (env s1) (_wire (this s1)) (_address (this s1))
                  = true).
  { subst s1. cbn [env this _wire _address]. unfold answers, wbegin.
    cbn [snd set_bus bus chip]. rewrite Nat.eqb_refl. cbn [started].
    rewrite Z.eqb_refl. cbn [andb].
    unfold gpio_mode. destruct (valid_pin p); cbn [chip];
      rewrite Hidle; reflexivity. }
  assert (Hwp1 : wp_asserted wr (env s1) = false).
  { subst s1. cbn [env]. rewrite <- Hwp. unfold wp_asserted, wbegin, gpio_mode.
    destruct (valid_pin p); reflexivity. }
  destruct (stored_write s1 A D HA Hans1 Hwp1) as (Hok & Hthis2 & Henv2).
  rewrite bind_run, Hok. cbn [fst snd].
  set (s2 := snd (write A D s1)) in *.
  rewrite bind_run, delay_run. cbn [fst snd].
  cbn [hal_delay board_hal hal].
  set (s3 := Build_state _ _ _).
  assert (Hans3 : answers wr (env s3) (_wire (this s3)) (_address (this s3))
                  = true).
  { subst s3. cbn [env this]. rewrite Hthis2, Henv2.
    apply answers_after_write; [|cbn [busy]; lia].
    rewrite answers_after_tx by (cbn [length]; lia). exact Hans1. }
  rewrite bind_run, (answered_read s3 A HA Hans3). unfold ret. cbn [fst].
  subst s3. cbn [env]. rewrite Henv2.
  cbn [wait set_chip chip mem]. unfold upd. rewrite Z.eqb_refl.
  rewrite (to_uint8_byte D HD). reflexivity.
Qed.

End BoardBehaviour.

(** ** Instances of the further properties *)

Lemma address_bytes_identify_the_cell_witness :
  is_uint16 0x1234 /\ is_uint16 0x00FF
  /\ sent_bytes (new_events (trace state1)
       (trace (snd (read (H := Board.hal Board.wiring0) 0x1234 state1))))
     = firstn 2 (sent_bytes (new_events (trace state1)
         (trace (snd (write (H := Board.hal Board.wiring0)
                        0x1234 0xAB state1))))).
Proof.
  assert (HA : is_uint16 0x1234) by (unfold is_uint16; lia).
  assert (HB : is_uint16 0x00FF) by (unfold is_uint16; lia).
  split; [exact HA|]. split; [exact HB|].
  destruct (address_bytes_identify_the_cell (H := Board.hal Board.wiring0)
              state1 state1 0x1234 0x00FF 0xAB 0 HA HB) as (Hsame & _).
  exact Hsame.
Defined.

Lemma calls_stay_on_the_bound_device_witness :
  forallb (confined (this state1))
    (new_events (trace state1)
       (trace (exec_all (H := Board.hal Board.wiring0)
                 [CallWrite 0 0x42; CallDelay 5; CallRead 0;
                  CallWriteProtect true; CallEnd] state1))) = true.
Proof.
  apply (calls_stay_on_the_bound_device (H := Board.hal Board.wiring0)).
  reflexivity.
Defined.

Lemma end_closes_the_bus_of_begin_witness :
  _wire (this (snd (end_ (H := Board.hal Board.wiring0)
     (exec_all (H := Board.hal Board.wiring0)
        [CallBeginWire 1%nat 0x50 7; CallWrite 0 0x42; CallRead 0]
        state0)))) = 1%nat.
Proof.
  destruct (end_closes_the_bus_of_begin (H := Board.hal Board.wiring0)
              1%nat 0x50 7 [CallWrite 0 0x42; CallRead 0] state0 eq_refl)
    as (_ & _ & _ & Hwire).
  exact Hwire.
Defined.

Lemma default_begin_drives_pin_255_witness :
  new_events
    (trace (exec_all (H := Board.hal Board.wiring0) [CallWrite 0 0x42]
              (snd (begin_default (H := Board.hal Board.wiring0) state0))))
    (trace (snd (writeProtect (H := Board.hal Board.wiring0) true
              (exec_all (H := Board.hal Board.wiring0) [CallWrite 0 0x42]
                 (snd (begin_default (H := Board.hal Board.wiring0)
                         state0))))))
  = [EvDigitalWrite 0xFF HIGH].
Proof.
  destruct (default_begin_drives_pin_255 (H := Board.hal Board.wiring0)
              true [CallWrite 0 0x42] state0 eq_refl) as (_ & _ & Hpin).
  exact Hpin.
Defined.

Lemma read_returns_the_cell_witness :
  fst (read (H := Board.hal Board.wiring0) 0 state1)
  = to_uint8 (Board.mem (Board.chip (env state1)) 0).
Proof.
  assert (HA : is_uint16 0) by (unfold is_uint16; lia).
  destruct (read_returns_the_cell Board.wiring0 state1 0 HA eq_refl)
    as (Hval & _).
  exact Hval.
Defined.

Lemma silent_device_witness :
  fst (write (H := Board.hal Board.wiring0) 0 0x42 state_busy) = false.
Proof.
  destruct (silent_device Board.wiring0 state_busy 0 0x42 eq_refl)
    as (Hfalse & _).
  exact Hfalse.
Defined.

Lemma write_changes_only_its_cell_witness :
  Board.busy (Board.chip
    (env (snd (write (H := Board.hal Board.wiring0) 0 0x42 state1)))) = 5.
Proof.
  assert (HA : is_uint16 0) by (unfold is_uint16; lia).
  destruct (write_changes_only_its_cell Board.wiring0 state1 0 0x42
              HA eq_refl eq_refl) as (_ & _ & Hbusy).
  exact Hbusy.
Defined.

Lemma protected_write_reports_success_witness :
  fst (write (H := Board.hal Board.wiring0) 0 0x42 state_protected) = true.
Proof.
  destruct (protected_write_reports_success Board.wiring0 state_protected
              0 0x42 eq_refl eq_refl) as (Hok & _).
  exact Hok.
Defined.

Lemma writeProtect_sets_the_protection_witness :
  Board.wp_asserted Board.wiring0
    (env (snd (writeProtect (H := Board.hal Board.wiring0) true state1)))
  = true.
Proof.
  destruct (writeProtect_sets_the_protection Board.wiring0 state1 true
              eq_refl eq_refl) as (Hwp & _).
  exact Hwp.
Defined.

Lemma no_operation_during_the_write_cycle_witness :
  fst ((write (H := Board.hal Board.wiring0) 0 0x42 ;;
        write (H := Board.hal Board.wiring0) 1 0x43) state1) = false.
Proof.
  assert (HA : is_uint16 0) by (unfold is_uint16; lia).
  destruct (no_operation_during_the_write_cycle Board.wiring0 state1
              0 0x42 1 0x43 HA eq_refl eq_refl) as (Hfalse & _).
  exact Hfalse.
Defined.

Lemma nothing_is_done_after_end_witness :
  fst (read (H := Board.hal Board.wiring0) 0
         (exec_all (H := Board.hal Board.wiring0)
            [CallWrite 0 0x42; CallDelay 5]
            (snd (end_ (H := Board.hal Board.wiring0) state1)))) = 0xFF.
Proof.
  destruct (nothing_is_done_after_end Board.wiring0
              [CallWrite 0 0x42; CallDelay 5] state1 0 0x42 eq_refl)
    as (_ & _ & _ & Hread).
  exact Hread.
Defined.

Lemma begin_write_wait_read_witness :
  fst ((b <- begin_wire (H := Board.hal Board.wiring0) Wire Default 7 ;;
        ok <- write (H := Board.hal Board.wiring0) 0x1234 0xAB ;;
        delay (H := Board.hal Board.wiring0) 5 ;;
        v <- read (H := Board.hal Board.wiring0) 0x1234 ;;
        ret (b, ok, v)) state0) = (true, true, 0xAB).
Proof.
  assert (HA : is_uint16 0x1234) by (unfold is_uint16; lia).
  assert (HD : is_uint8 0xAB) by (unfold is_uint8; lia).
  assert (Hms : 5 <= 5) by lia.
  exact (begin_write_wait_read Board.wiring0 state0 7 0x1234 0xAB 5
           HA HD Hms eq_refl eq_refl).
Defined.
